(** * SecurePDF front end: the upload / redact controller of [src/App.js]

    The component [PiiRedactionApp] keeps four React state cells, exposes two
    event handlers ([handleUpload], [handleRedact]) and returns a view computed
    from the cells.  The handlers are embedded as programs over a small effect
    signature (state setters, [alert], one awaited HTTP request with
    [try]/[catch]/[finally] around it); the view as a tree of elements. *)

From Stdlib Require Import List String Bool ZArith.
Import ListNotations.
Local Open Scope string_scope.

(** ** JavaScript values *)

Module Js.

(** A number, as far as this program can observe one: whether it is [NaN],
    a zero ([+0] and [-0] both print as [0]), or any other number, carried by
    its [ToString] rendering. *)
Inductive Number :=
| NumNaN
| NumZero
| NumOther (text : string).

Definition num_text (n : Number) : string :=
  match n with
  | NumNaN => "NaN"
  | NumZero => "0"
  | NumOther text => text
  end.

Definition num_zero_or_NaN (n : Number) : bool :=
  match n with
  | NumNaN | NumZero => true
  | NumOther _ => false
  end.

(** The values a response body parsed from JSON can hold, and [undefined]. *)
#[warnings="-register-all"]
Inductive Value :=
| VUndefined
| VNull
| VBool (b : bool)
| VNum (n : Number)
| VStr (s : string)
| VArr (items : list Value)
| VObj (fields : list (string * Value)).

(** Exceptions that reach the [catch] clause. *)
Inductive Exn :=
| TypeError (message : string)
| RequestError (message : string).

(** Result of evaluating an expression: a value, or a thrown exception. *)
Inductive Completion (A : Type) :=
| Normal (a : A)
| Abrupt (e : Exn).
Arguments Normal {A} a.
Arguments Abrupt {A} e.

Definition is_empty (s : string) : bool :=
  match s with EmptyString => true | String _ _ => false end.

(** [ToBoolean]: the test of [if], [!], [&&] and [?:]. *)
Definition truthy (v : Value) : bool :=
  match v with
  | VUndefined | VNull => false
  | VBool b => b
  | VNum n => negb (num_zero_or_NaN n)
  | VStr s => negb (is_empty s)
  | VArr _ | VObj _ => true
  end.

Fixpoint lookup (key : string) (fields : list (string * Value)) : option Value :=
  match fields with
  | [] => None
  | (k, v) :: rest => if String.eqb k key then Some v else lookup key rest
  end.

Definition has_own (key : string) (fields : list (string * Value)) : bool :=
  match lookup key fields with Some _ => true | None => false end.

(** The answer of [v.key] on a value that has properties, for a property name
    that no built-in prototype defines (here [filename] and [used_ocr]): a
    plain object answers with its own field, everything else with
    [undefined]. *)
Definition prop (v : Value) (key : string) : Value :=
  match v with
  | VObj fields =>
      match lookup key fields with
      | Some x => x
      | None => VUndefined
      end
  | _ => VUndefined
  end.

(** [v.key]: reading a property of [null] or [undefined] throws. *)
Definition Get (v : Value) (key : string) : Completion Value :=
  match v with
  | VUndefined => Abrupt (TypeError "Cannot read properties of undefined")
  | VNull => Abrupt (TypeError "Cannot read properties of null")
  | _ => Normal (prop v key)
  end.

(** [ToString], as applied by a template literal [`...${v}`].  A parsed object
    prints as [[object Object]] unless a field of its own shadows [toString]
    (no field of a parsed body is callable, so the conversion then throws); an
    array joins its items with commas, [null] and [undefined] items printing
    as nothing. *)
Fixpoint ToString (v : Value) : Completion string :=
  match v with
  | VUndefined => Normal "undefined"
  | VNull => Normal "null"
  | VBool true => Normal "true"
  | VBool false => Normal "false"
  | VNum n => Normal (num_text n)
  | VStr s => Normal s
  | VObj fields =>
      if has_own "toString" fields
      then Abrupt (TypeError "Cannot convert object to primitive value")
      else Normal "[object Object]"
  | VArr items =>
      let item (x : Value) : Completion string :=
        match x with
        | VUndefined | VNull => Normal ""
        | _ => ToString x
        end in
      (fix join (l : list Value) : Completion string :=
         match l with
         | [] => Normal ""
         | [x] => item x
         | x :: rest =>
             match item x with
             | Abrupt e => Abrupt e
             | Normal sx =>
                 match join rest with
                 | Abrupt e => Abrupt e
                 | Normal sr => Normal (sx ++ "," ++ sr)
                 end
             end
         end) items
  end.

End Js.
Import Js.

(** ** The platform: files, the picker event, the HTTP client *)

(** A [File] handed over by the file picker; the component never looks inside. *)
Record File := mkFile { file_name : string; file_bytes : list Byte.byte }.

(** What the [pdf] cell can hold: its initial [null], the [undefined] that
    [files[0]] yields on an empty list, or a file. *)
Inductive FileRef :=
| NoFileNull
| NoFileUndefined
| Picked (f : File).

(** The [change] event of the file input: [event.target.files]. *)
Record ChangeEvent := mkChangeEvent { target_files : list File }.

(** [files[i]]: indexing past the end answers [undefined]. *)
Definition item (files : list File) (i : nat) : FileRef :=
  match nth_error files i with
  | Some f => Picked f
  | None => NoFileUndefined
  end.

(** A [FormData] body: the appended parts, in order. *)
Definition FormData := list (string * File).
Definition FormData_new : FormData := [].
Definition FormData_append (name : string) (f : File) (fd : FormData) : FormData :=
  (fd ++ [(name, f)])%list.

Record Request := mkRequest {
  req_method : string;
  req_url : string;
  req_body : FormData;
  req_headers : list (string * string)
}.

(** The fields of the client's response object that the handler reads. *)
Record Response := mkResponse { status : Z; data : Value }.

(** How the awaited request promise settles. *)
Inductive Settlement :=
| Fulfilled (response : Response)
| Rejected (error : Exn).

(** ** Component state and effects *)

(** The four [useState] cells. *)
Record State := mkState {
  pdf : FileRef;
  redactedPdf : Value;
  usedOcr : Value;
  isLoading : bool
}.

(** The cells as the first render initialises them. *)
Definition initial_state : State :=
  {| pdf := NoFileNull; redactedPdf := VNull; usedOcr := VBool false; isLoading := false |}.

(** The effects a handler performs besides awaiting the request. *)
Inductive Effect :=
| SetPdf (v : FileRef)
| SetRedactedPdf (v : Value)
| SetUsedOcr (v : Value)
| SetIsLoading (b : bool)
| Alert (message : string).

Definition apply_effect (e : Effect) (s : State) : State :=
  match e with
  | SetPdf v =>
      {| pdf := v; redactedPdf := redactedPdf s; usedOcr := usedOcr s; isLoading := isLoading s |}
  | SetRedactedPdf v =>
      {| pdf := pdf s; redactedPdf := v; usedOcr := usedOcr s; isLoading := isLoading s |}
  | SetUsedOcr v =>
      {| pdf := pdf s; redactedPdf := redactedPdf s; usedOcr := v; isLoading := isLoading s |}
  | SetIsLoading b =>
      {| pdf := pdf s; redactedPdf := redactedPdf s; usedOcr := usedOcr s; isLoading := b |}
  | Alert _ => s
  end.

(** ** Handler bodies as programs *)

(** The body of a (possibly [async]) handler: it returns, throws, performs an
    effect and goes on, or awaits the request and goes on with its settlement. *)
Inductive Async (A : Type) :=
| Return (a : A)
| Throw (e : Exn)
| Do (e : Effect) (k : Async A)
| Await (r : Request) (k : Settlement -> Async A).
Arguments Return {A} a.
Arguments Throw {A} e.
Arguments Do {A} e k.
Arguments Await {A} r k.

Fixpoint bind {A B : Type} (p : Async A) (f : A -> Async B) : Async B :=
  match p with
  | Return a => f a
  | Throw e => Throw e
  | Do e k => Do e (bind k f)
  | Await r k => Await r (fun st => bind (k st) f)
  end.

Declare Scope async_scope.
Delimit Scope async_scope with async.
Notation "x <- p ;; q" := (bind p (fun x => q))
  (at level 61, p at next level, right associativity) : async_scope.
Notation "p ;; q" := (bind p (fun _ => q))
  (at level 61, right associativity) : async_scope.
Local Open Scope async_scope.

(** [try { body } catch (error) { handler error }] *)
Fixpoint try_catch {A : Type} (body : Async A) (handler : Exn -> Async A) : Async A :=
  match body with
  | Return a => Return a
  | Throw e => handler e
  | Do e k => Do e (try_catch k handler)
  | Await r k => Await r (fun st => try_catch (k st) handler)
  end.

(** [try { body } finally { final }]: [final] runs whether [body] returned or
    threw, and the outcome of [body] stands unless [final] itself throws. *)
Fixpoint try_finally {A : Type} (body : Async A) (final : Async unit) : Async A :=
  match body with
  | Return a => final ;; Return a
  | Throw e => final ;; Throw e
  | Do e k => Do e (try_finally k final)
  | Await r k => Await r (fun st => try_finally (k st) final)
  end.

Definition try_catch_finally {A : Type}
    (body : Async A) (handler : Exn -> Async A) (final : Async unit) : Async A :=
  try_finally (try_catch body handler) final.

Definition lift {A : Type} (c : Completion A) : Async A :=
  match c with
  | Normal a => Return a
  | Abrupt e => Throw e
  end.

Definition perform (e : Effect) : Async unit := Do e (Return tt).
Definition setPdf (v : FileRef) : Async unit := perform (SetPdf v).
Definition setRedactedPdf (v : Value) : Async unit := perform (SetRedactedPdf v).
Definition setUsedOcr (v : Value) : Async unit := perform (SetUsedOcr v).
Definition setIsLoading (b : bool) : Async unit := perform (SetIsLoading b).
Definition alert (message : string) : Async unit := perform (Alert message).

(** [await promise]: a fulfilled promise gives its value, a rejected one throws
    its reason at the [await]. *)
Definition await (r : Request) : Async Response :=
  Await r (fun st =>
    match st with
    | Fulfilled response => Return response
    | Rejected error => Throw error
    end).

(** [axios.post(url, body, { headers })] *)
Definition axios_post (url : string) (body : FormData)
    (headers : list (string * string)) : Request :=
  {| req_method := "POST"; req_url := url; req_body := body; req_headers := headers |}.

(** [a && b]: [b] is evaluated only when [a] is truthy. *)
Definition and_then (a : Value) (b : Async Value) : Async Value :=
  if truthy a then b else Return a.

(** [n === 200] on numbers. *)
Definition strict_eq (n m : Z) : Value := VBool (Z.eqb n m).

(** ** The two handlers *)

Definition handleUpload (event : ChangeEvent) : Async unit :=
  setPdf (item (target_files event) 0).

Definition handleRedact (pdf : FileRef) : Async unit :=
  match pdf with
  | NoFileNull | NoFileUndefined =>          (* [!pdf] *)
      alert "Please upload a PDF first." ;;
      Return tt
  | Picked file =>
      let formData := FormData_append "file" file FormData_new in
      setIsLoading true ;;
      try_catch_finally
        (response <- await (axios_post "http://127.0.0.1:8000/redact-pdf/" formData
                              [("Content-Type", "multipart/form-data")]) ;;
         ok <- and_then (strict_eq (status response) 200)
                        (lift (Get (data response) "filename")) ;;
         if truthy ok then
           filename <- lift (Get (data response) "filename") ;;
           name <- lift (ToString filename) ;;
           setRedactedPdf (VStr ("http://127.0.0.1:8000/output/" ++ name)) ;;
           used_ocr <- lift (Get (data response) "used_ocr") ;;
           setUsedOcr used_ocr
         else
           alert "Something went wrong. Please try again.")
        (fun error => alert "Failed to process the PDF.")
        (setIsLoading false)
  end.

(** ** Running a handler *)

(** A handler body runs until it finishes (returning or throwing) or until it
    suspends at the awaited request; the effects performed on the way are
    applied to the state cells and logged in order. *)
Inductive Run (A : Type) :=
| Finished (result : Completion A) (s : State) (log : list Effect)
| Suspended (r : Request) (k : Settlement -> Async A) (s : State) (log : list Effect).
Arguments Finished {A} result s log.
Arguments Suspended {A} r k s log.

Fixpoint exec {A : Type} (p : Async A) (s : State) (log : list Effect) : Run A :=
  match p with
  | Return a => Finished (Normal a) s log
  | Throw e => Finished (Abrupt e) s log
  | Do e k => exec k (apply_effect e s) (log ++ [e])%list
  | Await r k => Suspended r k s log
  end.

(** Resuming a suspended run once the request has settled.  [now] is the state
    of the cells at that moment: other handlers may have run in between. *)
Definition resume {A : Type} (r : Run A) (st : Settlement) (now : State) : Run A :=
  match r with
  | Suspended _ k _ _ => exec (k st) now []
  | Finished _ _ _ => r
  end.

Definition state_of {A : Type} (r : Run A) : State :=
  match r with
  | Finished _ s _ | Suspended _ _ s _ => s
  end.

Definition log_of {A : Type} (r : Run A) : list Effect :=
  match r with
  | Finished _ _ log | Suspended _ _ _ log => log
  end.

(** The request a run has dispatched and is waiting for, if any. *)
Definition dispatched {A : Type} (r : Run A) : option Request :=
  match r with
  | Suspended req _ _ _ => Some req
  | Finished _ _ _ => None
  end.

(** The run gave control back to the user without an uncaught exception. *)
Definition returned {A : Type} (r : Run A) : bool :=
  match r with
  | Finished (Normal _) _ _ => true
  | _ => false
  end.

(** The notices shown, in order. *)
Fixpoint alerts (log : list Effect) : list string :=
  match log with
  | [] => []
  | Alert m :: rest => m :: alerts rest
  | _ :: rest => alerts rest
  end.

(** The values handed to [setRedactedPdf], in order. *)
Fixpoint url_writes (log : list Effect) : list Value :=
  match log with
  | [] => []
  | SetRedactedPdf v :: rest => v :: url_writes rest
  | _ :: rest => url_writes rest
  end.

(** The values handed to [setIsLoading], in order. *)
Fixpoint loading_writes (log : list Effect) : list bool :=
  match log with
  | [] => []
  | SetIsLoading b :: rest => b :: loading_writes rest
  | _ :: rest => loading_writes rest
  end.

(** The user picks files: [onChange] fires with the event. *)
Definition select_file (s : State) (event : ChangeEvent) : Run unit :=
  exec (handleUpload event) s [].

(** The user presses the action: the [handleRedact] closure of the render of
    [s] runs up to its first suspension. *)
Definition submit (s : State) : Run unit :=
  exec (handleRedact (pdf s)) s [].

(** The request of [submit s] settles with [st] while the cells hold [now]. *)
Definition settle (s : State) (st : Settlement) (now : State) : Run unit :=
  resume (submit s) st now.

(** A whole submission with nothing else happening while it is in flight. *)
Definition submit_and_settle (s : State) (st : Settlement) : Run unit :=
  settle s st (state_of (submit s)).

(** ** The rendered view *)

(** An [sx] or [style] object. *)
#[warnings="-register-all"]
Inductive Sx :=
| SxStr (s : string)
| SxObj (fields : list (string * Sx)).

(** The value of an attribute of an element. *)
Inductive Attr :=
| AStr (s : string)
| ABool (b : bool)
| AVal (v : Value)
| AStyle (style : list (string * Sx))
| AOnChange (h : ChangeEvent -> Async unit)
| AOnClick (h : Async unit).

(** A rendered node: an element, a piece of text, or the value of a
    [{expression}] child that is not an element. *)
#[warnings="-register-all"]
Inductive Node :=
| Elem (tag : string) (attrs : list (string * Attr)) (children : list Node)
| Text (s : string)
| Expr (v : Value).

(** [{a && element}] *)
Definition and_node (a : Value) (element : Node) : Node :=
  if truthy a then element else Expr a.

Definition neon : list (string * Sx) :=
  [("backgroundColor", SxStr "#39ff14");
   ("color", SxStr "#121212");
   ("fontWeight", SxStr "bold");
   ("textShadow", SxStr "0px 0px 10px #39ff14");
   ("&:hover", SxObj [("backgroundColor", SxStr "#2fed06")])].

(** The component: from the state cells of the current render to the view,
    with the handlers closed over that render. *)
Definition PiiRedactionApp (s : State) : Node :=
  Elem "Container"
    [("sx", AStyle [("textAlign", SxStr "center");
                    ("padding", SxStr "20px");
                    ("backgroundColor", SxStr "#121212");
                    ("borderRadius", SxStr "10px");
                    ("minHeight", SxStr "100vh");
                    ("display", SxStr "flex");
                    ("flexDirection", SxStr "column");
                    ("justifyContent", SxStr "center");
                    ("alignItems", SxStr "center")])]
    [ Elem "Typography"
        [("variant", AStr "h4");
         ("sx", AStyle [("fontWeight", SxStr "bold"); ("color", SxStr "#39ff14");
                        ("textShadow", SxStr "0px 0px 10px #39ff14")])]
        [Text "Welcome to SecurePDF"];
      Elem "Typography"
        [("variant", AStr "subtitle1");
         ("sx", AStyle [("marginBottom", SxStr "20px"); ("color", SxStr "#a0a0a0")])]
        [Text "The safest way to redact sensitive information from PDFs."];
      Elem "Card"
        [("sx", AStyle [("backgroundColor", SxStr "#1e1e1e"); ("padding", SxStr "15px");
                        ("borderRadius", SxStr "10px"); ("marginBottom", SxStr "20px")])]
        [ Elem "Typography"
            [("variant", AStr "h6");
             ("sx", AStyle [("fontWeight", SxStr "bold"); ("color", SxStr "#39ff14")])]
            [Text "Key Features:"];
          Elem "ul"
            [("style", AStyle [("paddingLeft", SxStr "20px"); ("color", SxStr "#a0a0a0")])]
            [ Elem "li" [] [Text "🔐 Secure PII redaction with AI"];
              Elem "li" [] [Text "⚡ Fast & efficient processing"];
              Elem "li" [] [Text "📂 Easy file upload & download"];
              Elem "li" [] [Text "🖥 Seamless API integration"] ] ];
      Elem "Box"
        [("sx", AStyle [("marginBottom", SxStr "15px")])]
        [ Elem "input"
            [("type", AStr "file");
             ("accept", AStr "application/pdf");
             ("onChange", AOnChange handleUpload);
             ("style", AStyle [("color", SxStr "#39ff14")])]
            [] ];
      Elem "Button"
        [("onClick", AOnClick (handleRedact (pdf s)));
         ("variant", AStr "contained");
         ("disabled", ABool (isLoading s));
         ("sx", AStyle neon)]
        [Text (if isLoading s then "Processing..." else "Redact PDF")];
      and_node (redactedPdf s)
        (Elem "Box"
           [("sx", AStyle [("marginTop", SxStr "20px")])]
           [ Elem "Typography"
               [("sx", AStyle [("color", SxStr "#39ff14");
                               ("textShadow", SxStr "0px 0px 10px #39ff14")])]
               [Text "✅ Redacted PDF Ready"];
             Elem "Button"
               [("variant", AStr "contained");
                ("href", AVal (redactedPdf s));
                ("download", ABool true);
                ("sx", AStyle neon)]
               [Text "Download Redacted PDF"];
             and_node (usedOcr s)
               (Elem "Typography"
                  [("sx", AStyle [("marginTop", SxStr "10px"); ("color", SxStr "#ffa726")])]
                  [Text "🛈 OCR was used because this PDF appears to be scanned. Accuracy may vary."]) ]);
      Elem "Typography"
        [("variant", AStr "body2");
         ("sx", AStyle [("marginTop", SxStr "30px"); ("color", SxStr "#a0a0a0")])]
        [ Text "Made with ❤ by ";
          Elem "span"
            [("style", AStyle [("color", SxStr "#39ff14");
                               ("textShadow", SxStr "0px 0px 10px #39ff14")])]
            [Text "Team Encryptors"] ] ].

(** ** Reading the view *)

Fixpoint attr (name : string) (attrs : list (string * Attr)) : option Attr :=
  match attrs with
  | [] => None
  | (k, a) :: rest => if String.eqb k name then Some a else attr name rest
  end.

Definition attr_of (name : string) (n : Node) : option Attr :=
  match n with
  | Elem _ attrs _ => attr name attrs
  | Text _ | Expr _ => None
  end.

(** All nodes of the tree satisfying [p], in document order. *)
Fixpoint find_all (p : Node -> bool) (n : Node) : list Node :=
  ((if p n then [n] else []) ++
   match n with
   | Elem _ _ children => flat_map (find_all p) children
   | Text _ | Expr _ => []
   end)%list.

(** The pieces of text the tree puts on screen, in document order.  A
    [{value}] child shows a string or a number and nothing for [null],
    [undefined] and booleans; the view only ever holds falsy values there. *)
Fixpoint texts (n : Node) : list string :=
  match n with
  | Elem _ _ children => flat_map texts children
  | Text s => [s]
  | Expr (VStr s) => [s]
  | Expr (VNum x) => [num_text x]
  | Expr _ => []
  end.

Definition is_tag (tag : string) (n : Node) : bool :=
  match n with
  | Elem t _ _ => String.eqb t tag
  | Text _ | Expr _ => false
  end.

Definition has_attr (name : string) (n : Node) : bool :=
  match attr_of name n with Some _ => true | None => false end.

(** The action controls: buttons wired to a click handler. *)
Definition action_controls (view : Node) : list Node :=
  find_all (fun n => is_tag "Button" n && has_attr "onClick" n) view.

(** The download links: buttons carrying the [download] attribute. *)
Definition download_links (view : Node) : list Node :=
  find_all (fun n => is_tag "Button" n && has_attr "download" n) view.

Definition ocr_advisory : string :=
  "🛈 OCR was used because this PDF appears to be scanned. Accuracy may vary.".

Definition shows (text : string) (view : Node) : bool :=
  existsb (String.eqb text) (texts view).

(** What the user sees of a control: whether it is disabled, and its label. *)
Definition disabled (n : Node) : option Attr := attr_of "disabled" n.
Definition label (n : Node) : list string := texts n.

(** ** The component over time *)

(** The running component: its cells and the continuations of the
    submissions whose request has not settled yet. *)
Record App := mkApp {
  cells : State;
  in_flight : list (Settlement -> Async unit)
}.

Definition mount : App := {| cells := initial_state; in_flight := [] |}.

(** Taking in a run of a handler: its state becomes the cells, and a
    suspended run joins the submissions in flight. *)
Definition absorb (r : Run unit) (others : list (Settlement -> Async unit)) : App :=
  match r with
  | Finished _ s' _ => {| cells := s'; in_flight := others |}
  | Suspended _ k s' _ => {| cells := s'; in_flight := (others ++ [k])%list |}
  end.

(** One event: the user picks files, the user submits, or the request of some
    submission in flight settles. *)
Inductive step : App -> App -> Prop :=
| step_select (a : App) (event : ChangeEvent) :
    step a (absorb (select_file (cells a) event) (in_flight a))
| step_submit (a : App) :
    step a (absorb (submit (cells a)) (in_flight a))
| step_settle (a : App) (before after : list (Settlement -> Async unit))
    (k : Settlement -> Async unit) (st : Settlement) :
    in_flight a = (before ++ k :: after)%list ->
    step a (absorb (exec (k st) (cells a) []) (before ++ after)%list).

Inductive reachable : App -> Prop :=
| reachable_mount : reachable mount
| reachable_step (a b : App) : reachable a -> step a b -> reachable b.

(** Every way through [p] ends right after the in-flight flag was written
    [false].  [last] is the last value written to the flag since the program
    was last resumed, if any: across an [await] other handlers may run, so
    nothing is known on resumption. *)
Fixpoint clears {A : Type} (p : Async A) (last : option bool) : Prop :=
  match p with
  | Return _ | Throw _ => last = Some false
  | Do (SetIsLoading b) k => clears k (Some b)
  | Do _ k => clears k last
  | Await _ k => forall st, clears (k st) None
  end.

(** ** Vocabulary of the properties *)

Definition static_base : string := "http://127.0.0.1:8000/output/".
Definition notice_no_file : string := "Please upload a PDF first.".
Definition notice_malformed : string := "Something went wrong. Please try again.".
Definition notice_failed : string := "Failed to process the PDF.".

(** No file is selected: the cell holds [null] or [undefined]. *)
Definition no_file (s : State) : Prop :=
  pdf s = NoFileNull \/ pdf s = NoFileUndefined.

(** A field of the response body, when the body is an object that has it. *)
Definition body_field (r : Response) (key : string) : option Value :=
  match data r with
  | VObj fields => lookup key fields
  | _ => None
  end.

(** The response lacks a usable [filename]: the status is not 200, the body
    has no such field, or the field is the empty string. *)
Definition lacks_usable_filename (r : Response) : Prop :=
  status r <> 200%Z \/
  body_field r "filename" = None \/
  body_field r "filename" = Some (VStr "").

(** The response takes the success branch and [name] is what its [filename]
    prints as. *)
Definition successful (r : Response) (name : string) : Prop :=
  status r = 200%Z /\
  exists v, Get (data r) "filename" = Normal v /\ truthy v = true /\
            ToString v = Normal name.

Definition nullish (v : Value) : bool :=
  match v with
  | VUndefined | VNull => true
  | _ => false
  end.

(** [s] with the in-flight flag replaced. *)
Definition with_loading (b : bool) (s : State) : State :=
  apply_effect (SetIsLoading b) s.

(** The cells after a stored result. *)
Definition with_result (url ocr : Value) (s : State) : State :=
  apply_effect (SetIsLoading false)
    (apply_effect (SetUsedOcr ocr) (apply_effect (SetRedactedPdf url) s)).

(** What the user sees of the action control: its [disabled] attribute and
    its label. *)
Definition action_surface (view : Node) : list (option Attr * list string) :=
  map (fun b => (disabled b, label b)) (action_controls view).

(** Sample data. *)
Definition report_pdf : File := {| file_name := "report.pdf"; file_bytes := [] |}.

Definition report_selected : State :=
  {| pdf := Picked report_pdf; redactedPdf := VNull; usedOcr := VBool false;
     isLoading := false |}.

Definition report_response : Response :=
  {| status := 200;
     data := VObj [("filename", VStr "report_redacted.pdf"); ("used_ocr", VBool true)] |}.

Definition null_body_response : Response := {| status := 200; data := VNull |}.

Definition earlier_result : State :=
  {| pdf := Picked report_pdf;
     redactedPdf := VStr "http://127.0.0.1:8000/output/report_redacted.pdf";
     usedOcr := VBool true;
     isLoading := true |}.

(** ** What a handler may do, and the interface as the user can drive it *)

(** Every effect on every way through [p] satisfies [P]. *)
Fixpoint every_effect {A : Type} (P : Effect -> Prop) (p : Async A) : Prop :=
  match p with
  | Return _ | Throw _ => True
  | Do e k => P e /\ every_effect P k
  | Await _ k => forall st, every_effect P (k st)
  end.

(** A download URL under the static base. *)
Definition under_base (v : Value) : Prop :=
  exists name, v = VStr (static_base ++ name).

(** The effects open to the submit handler: no write of the selected file, a
    download URL only under the static base, one of the three notices. *)
Definition submit_effect (e : Effect) : Prop :=
  match e with
  | SetPdf _ => False
  | SetRedactedPdf v => under_base v
  | SetUsedOcr _ | SetIsLoading _ => True
  | Alert m => m = notice_no_file \/ m = notice_malformed \/ m = notice_failed
  end.

(** The effects that never take a result away. *)
Definition keeps_result (e : Effect) : Prop :=
  match e with
  | SetRedactedPdf v => truthy v = true
  | _ => True
  end.

(** The download URL cell holds its initial [null] or a URL under the base. *)
Definition url_ok (s : State) : Prop :=
  redactedPdf s = VNull \/ under_base (redactedPdf s).

(** The POST that a submission with [file] selected sends. *)
Definition redact_request (file : File) : Request :=
  {| req_method := "POST";
     req_url := "http://127.0.0.1:8000/redact-pdf/";
     req_body := [("file", file)];
     req_headers := [("Content-Type", "multipart/form-data")] |}.

Definition ready_text : string := "✅ Redacted PDF Ready".

(** The user can press the action: the view has an action control that is
    not disabled. *)
Definition pressable (view : Node) : bool :=
  existsb (fun b => match disabled b with
                    | Some (ABool true) => false
                    | _ => true
                    end)
          (action_controls view).

(** One event of the interface as the user can drive it: like [step], but
    the submit handler only runs when the action control of the current view
    can be pressed. *)
Inductive ui_step : App -> App -> Prop :=
| ui_select (a : App) (event : ChangeEvent) :
    ui_step a (absorb (select_file (cells a) event) (in_flight a))
| ui_press (a : App) :
    pressable (PiiRedactionApp (cells a)) = true ->
    ui_step a (absorb (submit (cells a)) (in_flight a))
| ui_settle (a : App) (before after : list (Settlement -> Async unit))
    (k : Settlement -> Async unit) (st : Settlement) :
    in_flight a = (before ++ k :: after)%list ->
    ui_step a (absorb (exec (k st) (cells a) []) (before ++ after)%list).

Inductive ui_reachable : App -> Prop :=
| ui_reachable_mount : ui_reachable mount
| ui_reachable_step (a b : App) : ui_reachable a -> ui_step a b -> ui_reachable b.

(** More sample data. *)
Definition scan_pdf : File := {| file_name := "scan.pdf"; file_bytes := [] |}.

Definition numbered_response : Response :=
  {| status := 200;
     data := VObj [("filename", VNum (NumOther "42")); ("used_ocr", VNum NumZero)] |}.

(** The request of the oldest submission in flight settles. *)
Definition settle_first (a : App) (st : Settlement) : App :=
  match in_flight a with
  | k :: others => absorb (exec (k st) (cells a) []) others
  | [] => a
  end.

(** A short session: pick [report.pdf], submit, receive the sample response. *)
Definition picked_app : App :=
  absorb (select_file (cells mount) {| target_files := [report_pdf] |}) (in_flight mount).

Definition submitted_app : App :=
  absorb (submit (cells picked_app)) (in_flight picked_app).

Definition served_app : App :=
  settle_first submitted_app (Fulfilled report_response).

(** The handler run a second time before the first request has settled. *)
Definition twice_submitted_app : App :=
  absorb (submit (cells submitted_app)) (in_flight submitted_app).

Ltac run_handler :=
  unfold handleRedact, handleUpload, try_catch_finally, and_then, strict_eq,
    lift, await, alert, setPdf, setRedactedPdf, setUsedOcr, setIsLoading, perform;
  cbn [exec bind try_catch try_finally truthy resume app].

(** ** Laws of [finally] *)

Lemma clears_try_finally {A : Type} (body : Async A) :
  forall last, clears (try_finally body (setIsLoading false)) last.
Proof.
  induction body as [a | e | e k IH | r k IH]; intros last; cbn.
  - reflexivity.
  - reflexivity.
  - destruct e; apply IH.
  - intros st. apply IH.
Qed.

Lemma clears_sound {A : Type} (p : Async A) :
  forall last s log,
    clears p last ->
    (forall b, last = Some b -> isLoading s = b) ->
    match exec p s log with
    | Finished _ s' _ => isLoading s' = false
    | Suspended _ k _ _ => forall st, clears (k st) None
    end.
Proof.
  induction p as [a | e | e k IH | r k IH]; intros last s log Hc Hlast; cbn in *.
  - apply Hlast, Hc.
  - apply Hlast, Hc.
  - destruct e as [v | v | v | flag | message]; cbn in *;
      (eapply IH; [exact Hc |]); intros b' Hb; cbn; auto.
    now inversion Hb.
  - exact Hc.
Qed.

(** ** What [handleRedact] does, branch by branch *)

Lemma Get_prop (d : Value) (key : string) (v : Value) :
  Get d key = Normal v -> forall key', Get d key' = Normal (prop d key').
Proof.
  destruct d; cbn; intros H key'; solve [discriminate | reflexivity].
Qed.

Lemma Get_cases (d : Value) (key : string) :
  (nullish d = true /\ exists e, Get d key = Abrupt e) \/
  (nullish d = false /\ Get d key = Normal (prop d key)).
Proof.
  destruct d; cbn; eauto.
Qed.

Section Submission.

Variables (s : State) (file : File).
Hypothesis selected : pdf s = Picked file.

Lemma submit_dispatches :
  exists k,
    submit s =
      Suspended
        (axios_post "http://127.0.0.1:8000/redact-pdf/" [("file", file)]
           [("Content-Type", "multipart/form-data")])
        k (with_loading true s) [SetIsLoading true].
Proof.
  unfold submit. rewrite selected. eexists. reflexivity.
Qed.

Lemma settle_rejected (now : State) (error : Exn) :
  settle s (Rejected error) now =
    Finished (Normal tt) (with_loading false now)
      [Alert notice_failed; SetIsLoading false].
Proof.
  unfold settle, submit. rewrite selected. reflexivity.
Qed.

Lemma settle_other_status (now : State) (r : Response) :
  status r <> 200%Z ->
  settle s (Fulfilled r) now =
    Finished (Normal tt) (with_loading false now)
      [Alert notice_malformed; SetIsLoading false].
Proof.
  intros Hst. apply Z.eqb_neq in Hst.
  unfold settle, submit. rewrite selected. run_handler.
  rewrite Hst. reflexivity.
Qed.

Lemma settle_unreadable (now : State) (r : Response) (e : Exn) :
  status r = 200%Z ->
  Get (data r) "filename" = Abrupt e ->
  settle s (Fulfilled r) now =
    Finished (Normal tt) (with_loading false now)
      [Alert notice_failed; SetIsLoading false].
Proof.
  intros Hst Hget. apply Z.eqb_eq in Hst.
  unfold settle, submit. rewrite selected. run_handler.
  rewrite Hst, Hget. reflexivity.
Qed.

Lemma settle_falsy (now : State) (r : Response) (v : Value) :
  status r = 200%Z ->
  Get (data r) "filename" = Normal v ->
  truthy v = false ->
  settle s (Fulfilled r) now =
    Finished (Normal tt) (with_loading false now)
      [Alert notice_malformed; SetIsLoading false].
Proof.
  intros Hst Hget Hv. apply Z.eqb_eq in Hst.
  unfold settle, submit. rewrite selected. run_handler.
  rewrite Hst, Hget. run_handler. rewrite Hv. reflexivity.
Qed.

Lemma settle_unprintable (now : State) (r : Response) (v : Value) (e : Exn) :
  status r = 200%Z ->
  Get (data r) "filename" = Normal v ->
  truthy v = true ->
  ToString v = Abrupt e ->
  settle s (Fulfilled r) now =
    Finished (Normal tt) (with_loading false now)
      [Alert notice_failed; SetIsLoading false].
Proof.
  intros Hst Hget Hv Hstr. apply Z.eqb_eq in Hst.
  unfold settle, submit. rewrite selected. run_handler.
  rewrite Hst, Hget. run_handler. rewrite Hv. run_handler.
  rewrite Hstr. reflexivity.
Qed.

Lemma settle_stored (now : State) (r : Response) (name : string) :
  successful r name ->
  settle s (Fulfilled r) now =
    Finished (Normal tt)
      (with_result (VStr (static_base ++ name)) (prop (data r) "used_ocr") now)
      [SetRedactedPdf (VStr (static_base ++ name));
       SetUsedOcr (prop (data r) "used_ocr");
       SetIsLoading false].
Proof.
  intros (Hst & v & Hget & Hv & Hstr). apply Z.eqb_eq in Hst.
  pose proof (Get_prop _ _ _ Hget "used_ocr") as Hocr.
  unfold settle, submit. rewrite selected. run_handler.
  rewrite Hst, Hget. run_handler. rewrite Hv. run_handler.
  rewrite Hstr. run_handler. rewrite Hocr. reflexivity.
Qed.

(** Every settlement ends the submission in one of two ways: a result is
    stored, or one failure notice is shown and only the flag is written. *)
Lemma settle_cases (st : Settlement) (now : State) :
  (exists r name,
      st = Fulfilled r /\ successful r name /\
      settle s st now =
        Finished (Normal tt)
          (with_result (VStr (static_base ++ name)) (prop (data r) "used_ocr") now)
          [SetRedactedPdf (VStr (static_base ++ name));
           SetUsedOcr (prop (data r) "used_ocr");
           SetIsLoading false]) \/
  (exists notice,
      (notice = notice_failed \/ notice = notice_malformed) /\
      settle s st now =
        Finished (Normal tt) (with_loading false now)
          [Alert notice; SetIsLoading false]).
Proof.
  destruct st as [r | e].
  2: { right. exists notice_failed. split; [now left | apply settle_rejected]. }
  destruct (Z.eq_dec (status r) 200) as [Hst | Hst].
  2: { right. exists notice_malformed.
       split; [now right | now apply settle_other_status]. }
  destruct (Get (data r) "filename") as [v | e] eqn:Hget.
  2: { right. exists notice_failed.
       split; [now left | now apply settle_unreadable with (e := e)]. }
  destruct (truthy v) eqn:Hv.
  2: { right. exists notice_malformed.
       split; [now right | now apply settle_falsy with (v := v)]. }
  destruct (ToString v) as [name | e] eqn:Hstr.
  - left. exists r, name. split; [reflexivity |].
    assert (Hok : successful r name) by (split; [assumption | exists v; auto]).
    split; [exact Hok | now apply settle_stored].
  - right. exists notice_failed.
    split; [now left | now apply settle_unprintable with (v := v) (e := e)].
Qed.

End Submission.

(** ** The component over time: the in-flight flag *)

Lemma handleRedact_clears (file : File) (last : option bool) :
  clears (handleRedact (Picked file)) last.
Proof.
  unfold handleRedact, setIsLoading, perform, try_catch_finally.
  cbn [bind clears]. apply clears_try_finally.
Qed.

(** While the flag is up some submission is in flight, and every submission
    in flight will lower the flag when it ends. *)
Lemma flag_invariant (a : App) :
  reachable a ->
  Forall (fun k => forall st, clears (k st) None) (in_flight a) /\
  (isLoading (cells a) = true -> in_flight a <> []).
Proof.
  induction 1 as [| a b Hreach [IHk IHflag] Hstep].
  - split; [constructor | discriminate].
  - destruct Hstep as [a event | a | a before after k st Hsplit]; cbn.
    + split; assumption.
    + unfold submit.
      destruct (pdf (cells a)) as [| | file] eqn:Hpdf; cbn; try (split; assumption).
      split.
      * apply Forall_app. split; [assumption |].
        constructor; [| constructor].
        pose proof (clears_sound _ None (cells a) []
                      (handleRedact_clears file None)) as Hk.
        cbn in Hk. apply Hk. discriminate.
      * intros _ Hnil. now apply app_eq_nil in Hnil as [_ Hnil].
    + rewrite Hsplit in IHk.
      apply Forall_app in IHk as [Hbefore Hrest].
      inversion Hrest as [| k' after' Hk Hafter]; subst.
      assert (Hothers : Forall (fun k => forall st, clears (k st) None) (before ++ after))
        by (apply Forall_app; split; assumption).
      pose proof (clears_sound (k st) None (cells a) [] (Hk st)) as Hend.
      destruct (exec (k st) (cells a) []) as [res s' log | r k' s' log]; cbn.
      * split; [assumption |].
        intros Hup. rewrite Hend in Hup; [discriminate | discriminate].
      * split.
        -- apply Forall_app. split; [assumption |].
           constructor; [| constructor]. apply Hend. discriminate.
        -- intros _ Hnil. now apply app_eq_nil in Hnil as [_ Hnil].
Qed.

(** ** Reading the view: what it shows for given cells *)

Lemma action_surface_view (s : State) :
  action_surface (PiiRedactionApp s) =
    [(Some (ABool (isLoading s)),
      [if isLoading s then "Processing..." else "Redact PDF"])].
Proof.
  unfold action_surface, action_controls, PiiRedactionApp, and_node.
  destruct (truthy (redactedPdf s)); [destruct (truthy (usedOcr s)) |];
    reflexivity.
Qed.

Lemma download_links_view (s : State) :
  map (attr_of "href") (download_links (PiiRedactionApp s)) =
    if truthy (redactedPdf s) then [Some (AVal (redactedPdf s))] else [].
Proof.
  unfold download_links, PiiRedactionApp, and_node.
  destruct (truthy (redactedPdf s)); [destruct (truthy (usedOcr s)) |];
    reflexivity.
Qed.

Lemma falsy_text (v : Value) :
  truthy v = false -> existsb (String.eqb ocr_advisory) (texts (Expr v)) = false.
Proof.
  destruct v as [| | b | [| | text] | [| c rest] | items | fields]; cbn [truthy];
    intros H; try discriminate; reflexivity.
Qed.

Lemma advisory_view (s : State) :
  shows ocr_advisory (PiiRedactionApp s) =
    truthy (redactedPdf s) && truthy (usedOcr s).
Proof.
  unfold shows, PiiRedactionApp, and_node.
  destruct (isLoading s);
    (destruct (truthy (redactedPdf s)) eqn:Hurl;
     [destruct (truthy (usedOcr s)) eqn:Hocr; [vm_compute; reflexivity |];
      pose proof (falsy_text _ Hocr) as Hnone
     | pose proof (falsy_text _ Hurl) as Hnone]);
    cbn [texts flat_map app] in *; cbn [existsb];
    rewrite ?app_nil_r, ?existsb_app, Hnone; vm_compute; reflexivity.
Qed.

(** ** The properties of the specification *)

(** C1.  In every state with no file selected, submitting shows the notice
    "Please upload a PDF first.", dispatches no request, and leaves all four
    cells (selected file, download URL, OCR flag, in-flight flag) as they
    were. *)
Theorem submit_without_file (s : State) :
  no_file s ->
  alerts (log_of (submit s)) = ["Please upload a PDF first."] /\
  dispatched (submit s) = None /\
  returned (submit s) = true /\
  state_of (submit s) = s.
Proof.
  unfold submit.
  intros [Hnull | Hundef]; [rewrite Hnull | rewrite Hundef]; cbn; auto.
Qed.

Lemma submit_without_file_witness :
  no_file initial_state /\
  alerts (log_of (submit initial_state)) = ["Please upload a PDF first."] /\
  dispatched (submit initial_state) = None /\
  returned (submit initial_state) = true /\
  state_of (submit initial_state) = initial_state.
Proof.
  split; [left; reflexivity |].
  apply (submit_without_file initial_state). left; reflexivity.
Defined.

Lemma contained_filename_is_usable (r : Response) (filename : string) :
  status r = 200%Z ->
  body_field r "filename" = Some (VStr filename) ->
  filename <> "" ->
  successful r filename.
Proof.
  unfold body_field. intros Hst Hfield Hne. split; [assumption |].
  exists (VStr filename).
  destruct (data r) as [| | b | n | str | items | fields]; try discriminate.
  cbn. rewrite Hfield. repeat split.
  destruct filename; [contradiction | reflexivity].
Qed.

(** C2.  For every response with status 200 whose body contains a non-empty
    [filename] string, the download URL stored by the submission is exactly
    the static base "http://127.0.0.1:8000/output/" followed by that string,
    and it is the only URL written. *)
Theorem stored_url_is_base_then_filename
    (s now : State) (file : File) (r : Response) (filename : string) :
  pdf s = Picked file ->
  status r = 200%Z ->
  body_field r "filename" = Some (VStr filename) ->
  filename <> "" ->
  redactedPdf (state_of (settle s (Fulfilled r) now)) =
    VStr ("http://127.0.0.1:8000/output/" ++ filename) /\
  url_writes (log_of (settle s (Fulfilled r) now)) =
    [VStr ("http://127.0.0.1:8000/output/" ++ filename)].
Proof.
  intros Hpdf Hst Hfield Hne.
  rewrite (settle_stored s file Hpdf now r filename)
    by now apply contained_filename_is_usable.
  split; reflexivity.
Qed.

Lemma stored_url_is_base_then_filename_witness :
  redactedPdf (state_of (settle report_selected (Fulfilled report_response)
                           (state_of (submit report_selected)))) =
    VStr "http://127.0.0.1:8000/output/report_redacted.pdf" /\
  url_writes (log_of (settle report_selected (Fulfilled report_response)
                        (state_of (submit report_selected)))) =
    [VStr "http://127.0.0.1:8000/output/report_redacted.pdf"].
Proof.
  apply (stored_url_is_base_then_filename report_selected
           (state_of (submit report_selected)) report_pdf report_response
           "report_redacted.pdf").
  - reflexivity.
  - reflexivity.
  - reflexivity.
  - discriminate.
Defined.

(** C3.  A submission that dispatches a request raises the in-flight flag
    before the request goes out; however the request settles (success,
    malformed response, rejection or an exception on the way) and whatever
    happened to the cells meanwhile, the handler returns with the flag
    lowered, having written it once.  Over the life of the component the
    flag is up only while some request is between dispatch and settlement. *)
Theorem in_flight_flag_cleared_on_every_exit (s : State) (file : File) :
  pdf s = Picked file ->
  (dispatched (submit s) <> None /\
   isLoading (state_of (submit s)) = true /\
   loading_writes (log_of (submit s)) = [true]) /\
  (forall (st : Settlement) (now : State),
      returned (settle s st now) = true /\
      dispatched (settle s st now) = None /\
      isLoading (state_of (settle s st now)) = false /\
      loading_writes (log_of (settle s st now)) = [false]) /\
  (forall a : App,
      reachable a -> isLoading (cells a) = true -> in_flight a <> []).
Proof.
  intros Hpdf. split; [| split].
  - destruct (submit_dispatches s file Hpdf) as [k Hk]. rewrite Hk. cbn.
    repeat split. discriminate.
  - intros st now.
    destruct (settle_cases s file Hpdf st now)
      as [(r & name & _ & _ & Hrun) | (notice & _ & Hrun)];
      rewrite Hrun; cbn; auto.
  - intros a Hreach. apply (flag_invariant a Hreach).
Qed.

Lemma in_flight_flag_cleared_on_every_exit_witness :
  (dispatched (submit report_selected) <> None /\
   isLoading (state_of (submit report_selected)) = true /\
   loading_writes (log_of (submit report_selected)) = [true]) /\
  (forall (st : Settlement) (now : State),
      returned (settle report_selected st now) = true /\
      dispatched (settle report_selected st now) = None /\
      isLoading (state_of (settle report_selected st now)) = false /\
      loading_writes (log_of (settle report_selected st now)) = [false]) /\
  (forall a : App,
      reachable a -> isLoading (cells a) = true -> in_flight a <> []).
Proof.
  apply (in_flight_flag_cleared_on_every_exit report_selected report_pdf).
  reflexivity.
Defined.

Lemma lacking_is_falsy (r : Response) :
  lacks_usable_filename r ->
  status r <> 200%Z \/ truthy (prop (data r) "filename") = false.
Proof.
  unfold lacks_usable_filename, body_field.
  intros [Hst | [Hnone | Hempty]].
  - left. assumption.
  - right. destruct (data r) as [| | b | n | str | items | fields]; cbn;
      try reflexivity.
    now rewrite Hnone.
  - right. destruct (data r) as [| | b | n | str | items | fields];
      try discriminate.
    cbn. now rewrite Hempty.
Qed.

(** C4 as stated fails: a response with status 200 whose body is [null] lacks
    a [filename], yet the notice shown is "Failed to process the PDF." and not
    the generic one. *)
Lemma null_body_gets_the_other_notice :
  lacks_usable_filename null_body_response /\
  alerts (log_of (submit_and_settle report_selected (Fulfilled null_body_response))) =
    ["Failed to process the PDF."] /\
  alerts (log_of (submit_and_settle report_selected (Fulfilled null_body_response))) <>
    ["Something went wrong. Please try again."].
Proof.
  split; [right; left; reflexivity |].
  split; [reflexivity | discriminate].
Qed.

(** Whatever makes the [filename] test fail, nothing is stored and one
    failure notice is shown; which one depends on whether the body can be
    read at all. *)
Lemma falsy_filename_no_result
    (s now : State) (file : File) (r : Response) :
  pdf s = Picked file ->
  status r <> 200%Z \/ truthy (prop (data r) "filename") = false ->
  settle s (Fulfilled r) now =
    Finished (Normal tt) (with_loading false now)
      [Alert (if (status r =? 200)%Z && nullish (data r)
              then notice_failed else notice_malformed);
       SetIsLoading false].
Proof.
  intros Hpdf Hlack.
  destruct (Z.eq_dec (status r) 200) as [Hst | Hst].
  - destruct Hlack as [Hother | Hfalsy]; [contradiction |].
    rewrite Hst. cbn [Z.eqb Pos.eqb andb].
    destruct (Get_cases (data r) "filename") as [[Hnull [e He]] | [Hnull Hget]];
      rewrite Hnull.
    + exact (settle_unreadable s file Hpdf now r e Hst He).
    + exact (settle_falsy s file Hpdf now r _ Hst Hget Hfalsy).
  - rewrite (settle_other_status s file Hpdf now r Hst).
    apply Z.eqb_neq in Hst. rewrite Hst. reflexivity.
Qed.

(** C4, amended.  For every response lacking a usable [filename] (missing,
    empty, or carrying a non-200 status) the submission writes no download
    URL, leaves the download URL and the OCR flag as they were, and shows
    exactly one failure notice: "Something went wrong. Please try again.",
    except that for a status-200 response whose body is [null] or [undefined]
    reading [filename] throws and the notice is "Failed to process the
    PDF.". *)
Theorem no_usable_filename_no_result
    (s now : State) (file : File) (r : Response) :
  pdf s = Picked file ->
  lacks_usable_filename r ->
  alerts (log_of (settle s (Fulfilled r) now)) =
    [if (status r =? 200)%Z && nullish (data r)
     then "Failed to process the PDF."
     else "Something went wrong. Please try again."] /\
  url_writes (log_of (settle s (Fulfilled r) now)) = [] /\
  redactedPdf (state_of (settle s (Fulfilled r) now)) = redactedPdf now /\
  usedOcr (state_of (settle s (Fulfilled r) now)) = usedOcr now /\
  returned (settle s (Fulfilled r) now) = true.
Proof.
  intros Hpdf Hlack.
  rewrite (falsy_filename_no_result s now file r Hpdf (lacking_is_falsy r Hlack)).
  cbn. auto.
Qed.

Lemma no_usable_filename_no_result_witness :
  alerts (log_of (settle report_selected
                    (Fulfilled {| status := 200; data := VObj [] |}) earlier_result)) =
    ["Something went wrong. Please try again."] /\
  url_writes (log_of (settle report_selected
                        (Fulfilled {| status := 200; data := VObj [] |}) earlier_result)) = [] /\
  redactedPdf (state_of (settle report_selected
                           (Fulfilled {| status := 200; data := VObj [] |}) earlier_result)) =
    redactedPdf earlier_result /\
  usedOcr (state_of (settle report_selected
                       (Fulfilled {| status := 200; data := VObj [] |}) earlier_result)) =
    usedOcr earlier_result /\
  returned (settle report_selected
              (Fulfilled {| status := 200; data := VObj [] |}) earlier_result) = true.
Proof.
  apply (no_usable_filename_no_result report_selected earlier_result report_pdf
           {| status := 200; data := VObj [] |}).
  - reflexivity.
  - right. left. reflexivity.
Defined.

(** C5.  Whenever the request is rejected, the submission shows the notice
    "Failed to process the PDF.", writes no download URL, and leaves the
    selected file, the download URL and the OCR flag as they were. *)
Theorem rejected_request_notice
    (s now : State) (file : File) (error : Exn) :
  pdf s = Picked file ->
  alerts (log_of (settle s (Rejected error) now)) = ["Failed to process the PDF."] /\
  url_writes (log_of (settle s (Rejected error) now)) = [] /\
  pdf (state_of (settle s (Rejected error) now)) = pdf now /\
  redactedPdf (state_of (settle s (Rejected error) now)) = redactedPdf now /\
  usedOcr (state_of (settle s (Rejected error) now)) = usedOcr now /\
  returned (settle s (Rejected error) now) = true.
Proof.
  intros Hpdf. rewrite (settle_rejected s file Hpdf now error). cbn. auto 7.
Qed.

Lemma rejected_request_notice_witness :
  alerts (log_of (settle report_selected (Rejected (RequestError "timeout"))
                    earlier_result)) = ["Failed to process the PDF."] /\
  url_writes (log_of (settle report_selected (Rejected (RequestError "timeout"))
                        earlier_result)) = [] /\
  pdf (state_of (settle report_selected (Rejected (RequestError "timeout"))
                   earlier_result)) = pdf earlier_result /\
  redactedPdf (state_of (settle report_selected (Rejected (RequestError "timeout"))
                           earlier_result)) = redactedPdf earlier_result /\
  usedOcr (state_of (settle report_selected (Rejected (RequestError "timeout"))
                       earlier_result)) = usedOcr earlier_result /\
  returned (settle report_selected (Rejected (RequestError "timeout"))
              earlier_result) = true.
Proof.
  apply (rejected_request_notice report_selected earlier_result report_pdf
           (RequestError "timeout")).
  reflexivity.
Defined.

(** C6.  After a successful response the OCR advisory is on screen exactly
    when the body's [used_ocr] is truthy; in particular it is shown when the
    field is [true] and not shown when the field is [false] or absent. *)
Theorem ocr_advisory_follows_used_ocr
    (s now : State) (file : File) (r : Response) (name : string) :
  pdf s = Picked file ->
  successful r name ->
  shows ocr_advisory (PiiRedactionApp (state_of (settle s (Fulfilled r) now))) =
    truthy (prop (data r) "used_ocr") /\
  (forall b : bool,
      body_field r "used_ocr" = Some (VBool b) ->
      (shows ocr_advisory (PiiRedactionApp (state_of (settle s (Fulfilled r) now))) = true
       <-> b = true)) /\
  (body_field r "used_ocr" = None ->
   shows ocr_advisory (PiiRedactionApp (state_of (settle s (Fulfilled r) now))) = false).
Proof.
  intros Hpdf Hok.
  rewrite (settle_stored s file Hpdf now r name Hok), advisory_view.
  cbn [state_of with_result apply_effect redactedPdf usedOcr].
  assert (Hurl : truthy (VStr (static_base ++ name)) = true) by reflexivity.
  rewrite Hurl. cbn [andb].
  split; [reflexivity |]. unfold body_field, prop.
  split.
  - intros b Hfield.
    destruct (data r) as [| | b' | n | str | items | fields]; try discriminate.
    rewrite Hfield. cbn. tauto.
  - intros Hfield.
    destruct (data r) as [| | b' | n | str | items | fields]; try reflexivity.
    rewrite Hfield. reflexivity.
Qed.

Lemma ocr_advisory_follows_used_ocr_witness :
  shows ocr_advisory
    (PiiRedactionApp (state_of (settle report_selected (Fulfilled report_response)
                                  (state_of (submit report_selected))))) =
    truthy (prop (data report_response) "used_ocr") /\
  (forall b : bool,
      body_field report_response "used_ocr" = Some (VBool b) ->
      (shows ocr_advisory
         (PiiRedactionApp (state_of (settle report_selected (Fulfilled report_response)
                                       (state_of (submit report_selected))))) = true
       <-> b = true)) /\
  (body_field report_response "used_ocr" = None ->
   shows ocr_advisory
     (PiiRedactionApp (state_of (settle report_selected (Fulfilled report_response)
                                   (state_of (submit report_selected))))) = false).
Proof.
  apply (ocr_advisory_follows_used_ocr report_selected
           (state_of (submit report_selected)) report_pdf report_response
           "report_redacted.pdf").
  - reflexivity.
  - split; [reflexivity |].
    exists (VStr "report_redacted.pdf"). repeat split.
Defined.

(** C7.  In every state, selecting a file writes the selected-file cell only:
    the download URL, the OCR flag and the in-flight flag keep their values,
    so an earlier result is never cleared. *)
Theorem select_file_writes_only_the_file (s : State) (event : ChangeEvent) :
  log_of (select_file s event) = [SetPdf (item (target_files event) 0)] /\
  pdf (state_of (select_file s event)) = item (target_files event) 0 /\
  redactedPdf (state_of (select_file s event)) = redactedPdf s /\
  usedOcr (state_of (select_file s event)) = usedOcr s /\
  isLoading (state_of (select_file s event)) = isLoading s /\
  returned (select_file s event) = true.
Proof.
  cbn. auto 7.
Qed.

(** C8.  The view is a function of the cells, and what it shows of the
    action control depends on the in-flight flag alone: the control is
    disabled and labelled "Processing..." (the label of the source, written
    with three full stops) exactly when the flag is true, and enabled with
    the label "Redact PDF" exactly when it is false. *)
Theorem action_control_follows_flag (s : State) :
  (isLoading s = true <->
   action_surface (PiiRedactionApp s) = [(Some (ABool true), ["Processing..."])]) /\
  (isLoading s = false <->
   action_surface (PiiRedactionApp s) = [(Some (ABool false), ["Redact PDF"])]) /\
  (forall s' : State,
      isLoading s' = isLoading s ->
      action_surface (PiiRedactionApp s') = action_surface (PiiRedactionApp s)).
Proof.
  split; [| split].
  - rewrite action_surface_view.
    destruct (isLoading s); split; intros H; solve [reflexivity | discriminate].
  - rewrite action_surface_view.
    destruct (isLoading s); split; intros H; solve [reflexivity | discriminate].
  - intros s' Hsame. rewrite !action_surface_view, Hsame. reflexivity.
Qed.

(** C9.  When the picker event carries an empty file list, selecting stores
    [undefined]; the next submission then shows "Please upload a PDF first."
    and dispatches no request. *)
Theorem empty_pick_then_submit (s : State) (event : ChangeEvent) :
  target_files event = [] ->
  pdf (state_of (select_file s event)) = NoFileUndefined /\
  alerts (log_of (submit (state_of (select_file s event)))) =
    ["Please upload a PDF first."] /\
  dispatched (submit (state_of (select_file s event))) = None.
Proof.
  intros Hempty. unfold select_file, handleUpload. rewrite Hempty.
  cbn. auto.
Qed.

Lemma empty_pick_then_submit_witness :
  pdf (state_of (select_file report_selected {| target_files := [] |})) =
    NoFileUndefined /\
  alerts (log_of (submit (state_of (select_file report_selected
                                      {| target_files := [] |})))) =
    ["Please upload a PDF first."] /\
  dispatched (submit (state_of (select_file report_selected
                                  {| target_files := [] |}))) = None.
Proof.
  apply (empty_pick_then_submit report_selected {| target_files := [] |}).
  reflexivity.
Defined.

(** C10.  In every state holding a download URL the download link to it is
    rendered, and the OCR advisory with it when the OCR flag is truthy,
    whatever the in-flight flag: while a further submission is in flight the
    view shows the link next to the disabled "Processing..." control. *)
Theorem result_stays_while_in_flight (s : State) :
  truthy (redactedPdf s) = true ->
  (map (attr_of "href") (download_links (PiiRedactionApp s)) =
     [Some (AVal (redactedPdf s))] /\
   shows ocr_advisory (PiiRedactionApp s) = truthy (usedOcr s)) /\
  (forall file : File,
      pdf s = Picked file ->
      isLoading (state_of (submit s)) = true /\
      action_surface (PiiRedactionApp (state_of (submit s))) =
        [(Some (ABool true), ["Processing..."])] /\
      map (attr_of "href") (download_links (PiiRedactionApp (state_of (submit s)))) =
        [Some (AVal (redactedPdf s))] /\
      shows ocr_advisory (PiiRedactionApp (state_of (submit s))) = truthy (usedOcr s)).
Proof.
  intros Hurl. split.
  - rewrite download_links_view, advisory_view, Hurl. split; reflexivity.
  - intros file Hpdf.
    destruct (submit_dispatches s file Hpdf) as [k Hk]. rewrite Hk.
    cbn [state_of].
    rewrite action_surface_view, download_links_view, advisory_view.
    cbn [with_loading apply_effect redactedPdf usedOcr isLoading].
    rewrite Hurl. repeat split.
Qed.

Lemma result_stays_while_in_flight_witness :
  (map (attr_of "href") (download_links (PiiRedactionApp earlier_result)) =
     [Some (AVal (redactedPdf earlier_result))] /\
   shows ocr_advisory (PiiRedactionApp earlier_result) =
     truthy (usedOcr earlier_result)) /\
  (forall file : File,
      pdf earlier_result = Picked file ->
      isLoading (state_of (submit earlier_result)) = true /\
      action_surface (PiiRedactionApp (state_of (submit earlier_result))) =
        [(Some (ABool true), ["Processing..."])] /\
      map (attr_of "href")
        (download_links (PiiRedactionApp (state_of (submit earlier_result)))) =
        [Some (AVal (redactedPdf earlier_result))] /\
      shows ocr_advisory (PiiRedactionApp (state_of (submit earlier_result))) =
        truthy (usedOcr earlier_result)).
Proof.
  apply (result_stays_while_in_flight earlier_result). reflexivity.
Defined.

(** ** What the handlers may do: effects on every path *)

Lemma every_effect_weaken {A : Type} (P Q : Effect -> Prop) (p : Async A) :
  (forall e, P e -> Q e) -> every_effect P p -> every_effect Q p.
Proof.
  intros HPQ. induction p as [a | e | e k IH | r k IH]; cbn; auto.
  intros [He Hk]. split; auto.
Qed.

Lemma every_effect_bind {A B : Type} (P : Effect -> Prop)
    (p : Async A) (f : A -> Async B) :
  every_effect P p -> (forall a, every_effect P (f a)) ->
  every_effect P (bind p f).
Proof.
  intros Hp Hf. induction p as [a | e | e k IH | r k IH]; cbn in *; auto.
  destruct Hp as [He Hk]. split; auto.
Qed.

Lemma every_effect_try_catch {A : Type} (P : Effect -> Prop)
    (body : Async A) (handler : Exn -> Async A) :
  every_effect P body -> (forall e, every_effect P (handler e)) ->
  every_effect P (try_catch body handler).
Proof.
  intros Hbody Hhandler.
  induction body as [a | e | e k IH | r k IH]; cbn in *; auto.
  destruct Hbody as [He Hk]. split; auto.
Qed.

Lemma every_effect_try_finally {A : Type} (P : Effect -> Prop)
    (body : Async A) (final : Async unit) :
  every_effect P body -> every_effect P final ->
  every_effect P (try_finally body final).
Proof.
  intros Hbody Hfinal.
  induction body as [a | e | e k IH | r k IH]; cbn in *; auto.
  - apply every_effect_bind; [assumption | intros _; exact I].
  - apply every_effect_bind; [assumption | intros _; exact I].
  - destruct Hbody as [He Hk]. split; auto.
Qed.

Lemma every_effect_lift {A : Type} (P : Effect -> Prop) (c : Completion A) :
  every_effect P (lift c).
Proof.
  destruct c; exact I.
Qed.

Lemma handleRedact_effects (selection : FileRef) :
  every_effect submit_effect (handleRedact selection).
Proof.
  destruct selection as [| | file]; cbn [handleRedact].
  - cbn. auto.
  - cbn. auto.
  - apply every_effect_bind; [cbn; auto | intros _].
    apply every_effect_try_finally; [| cbn; auto].
    apply every_effect_try_catch; [| intros e; cbn; auto].
    apply every_effect_bind; [intros [response | error]; exact I | intros response].
    apply every_effect_bind.
    { unfold and_then. destruct (truthy _); [apply every_effect_lift | exact I]. }
    intros ok. destruct (truthy ok); [| cbn; auto].
    apply every_effect_bind; [apply every_effect_lift | intros filename].
    apply every_effect_bind; [apply every_effect_lift | intros name].
    apply every_effect_bind.
    { cbn. split; [exists name; reflexivity | exact I]. }
    intros _.
    apply every_effect_bind; [apply every_effect_lift | intros used_ocr].
    cbn. auto.
Qed.

(** Running a program whose effects all satisfy [P] keeps every property of
    the cells that such effects keep, logs only such effects, and suspends
    into a program of the same kind. *)
Lemma exec_every_effect {A : Type} (P : Effect -> Prop) (Inv : State -> Prop)
    (p : Async A) :
  (forall e s, P e -> Inv s -> Inv (apply_effect e s)) ->
  forall s log,
    every_effect P p -> Inv s -> Forall P log ->
    Inv (state_of (exec p s log)) /\
    Forall P (log_of (exec p s log)) /\
    match exec p s log with
    | Suspended _ k _ _ => forall st, every_effect P (k st)
    | Finished _ _ _ => True
    end.
Proof.
  intros Hkeep.
  induction p as [a | e | e k IH | r k IH]; intros s log Hp Hs Hlog; cbn in *; auto.
  destruct Hp as [He Hk]. apply IH; auto.
  apply Forall_app. split; [assumption | constructor; [assumption | constructor]].
Qed.

(** A property of the cells that the submit handler's effects and a new
    selection keep holds in every state the component reaches, and every
    submission in flight will go on with such effects only. *)
Lemma reachable_invariant (P : Effect -> Prop) (Inv : State -> Prop) :
  (forall e s, P e -> Inv s -> Inv (apply_effect e s)) ->
  (forall v s, Inv s -> Inv (apply_effect (SetPdf v) s)) ->
  (forall selection, every_effect P (handleRedact selection)) ->
  Inv initial_state ->
  forall a, reachable a ->
    Inv (cells a) /\
    Forall (fun k => forall st, every_effect P (k st)) (in_flight a).
Proof.
  intros Hkeep Hselect Hhandler Hinit a Hreach.
  induction Hreach as [| a b Hreach [IHcells IHk] Hstep].
  - split; [exact Hinit | constructor].
  - destruct Hstep as [a event | a | a before after k st Hsplit].
    + cbn. split; [apply Hselect |]; assumption.
    + unfold submit.
      destruct (exec_every_effect P Inv (handleRedact (pdf (cells a))) Hkeep
                  (cells a) [] (Hhandler _) IHcells (Forall_nil _))
        as (Hcells & _ & Hnext).
      destruct (exec (handleRedact (pdf (cells a))) (cells a) [])
        as [res s' log | r k s' log]; cbn in *.
      * split; assumption.
      * split; [assumption |].
        apply Forall_app. split; [assumption | constructor; [assumption | constructor]].
    + rewrite Hsplit in IHk.
      apply Forall_app in IHk as [Hbefore Hrest].
      inversion Hrest as [| k' after' Hk Hafter]; subst.
      destruct (exec_every_effect P Inv (k st) Hkeep (cells a) [] (Hk st)
                  IHcells (Forall_nil _)) as (Hcells & _ & Hnext).
      assert (Hothers : Forall (fun k => forall st, every_effect P (k st))
                          (before ++ after))
        by (apply Forall_app; split; assumption).
      destruct (exec (k st) (cells a) []) as [res s' log | r k' s' log]; cbn in *.
      * split; assumption.
      * split; [assumption |].
        apply Forall_app. split; [assumption | constructor; [assumption | constructor]].
Qed.

Lemma ui_reachable_is_reachable (a : App) : ui_reachable a -> reachable a.
Proof.
  induction 1 as [| a b Hreach IH Hstep]; [constructor |].
  apply reachable_step with (a := a); [assumption |].
  destruct Hstep; [apply step_select | apply step_submit | now apply step_settle].
Qed.

(** ** Further properties of the handlers *)

(** X1.  A submission dispatches a request exactly when a file is selected,
    and the request is then the POST to the redaction endpoint whose
    multipart body has the single part [file] holding that file, whatever its
    name or content. *)
Theorem request_iff_file_selected (s : State) (req : Request) :
  dispatched (submit s) = Some req <->
  exists file, pdf s = Picked file /\ req = redact_request file.
Proof.
  unfold submit. split.
  - destruct (pdf s) as [| | file] eqn:Hpdf; cbn; intros H; try discriminate.
    exists file. split; [reflexivity | now inversion H].
  - intros (file & Hpdf & ->). rewrite Hpdf. reflexivity.
Qed.

(** X2.  A submission never writes the selected file: it is the same after
    the dispatch, and a settlement leaves in place whatever selection the
    cells hold by then, also one made while the request was in flight. *)
Theorem submission_keeps_selection (s : State) (file : File) :
  pdf s = Picked file ->
  pdf (state_of (submit s)) = pdf s /\
  (forall (st : Settlement) (now : State),
      pdf (state_of (settle s st now)) = pdf now).
Proof.
  intros Hpdf. split.
  - destruct (submit_dispatches s file Hpdf) as [k Hk]. rewrite Hk. reflexivity.
  - intros st now.
    destruct (settle_cases s file Hpdf st now)
      as [(r & name & _ & _ & Hrun) | (notice & _ & Hrun)];
      rewrite Hrun; reflexivity.
Qed.

Lemma submission_keeps_selection_witness :
  pdf (state_of (submit report_selected)) = pdf report_selected /\
  (forall (st : Settlement) (now : State),
      pdf (state_of (settle report_selected st now)) = pdf now).
Proof.
  apply (submission_keeps_selection report_selected report_pdf). reflexivity.
Defined.

(** X3.  Every settlement ends the submission in exactly one of two ways:
    one download URL under the static base is written and no notice is
    shown, or exactly one of the two failure notices is shown and neither the
    download URL nor the OCR flag is written. *)
Theorem settlement_stores_or_notifies
    (s now : State) (file : File) (st : Settlement) :
  pdf s = Picked file ->
  (alerts (log_of (settle s st now)) = [] /\
   exists name,
     url_writes (log_of (settle s st now)) = [VStr (static_base ++ name)]) \/
  (url_writes (log_of (settle s st now)) = [] /\
   redactedPdf (state_of (settle s st now)) = redactedPdf now /\
   usedOcr (state_of (settle s st now)) = usedOcr now /\
   (alerts (log_of (settle s st now)) = ["Failed to process the PDF."] \/
    alerts (log_of (settle s st now)) = ["Something went wrong. Please try again."])).
Proof.
  intros Hpdf.
  destruct (settle_cases s file Hpdf st now)
    as [(r & name & _ & _ & Hrun) | (notice & Hnotice & Hrun)]; rewrite Hrun.
  - left. split; [reflexivity | exists name; reflexivity].
  - right. cbn. repeat split.
    destruct Hnotice as [-> | ->]; [left | right]; reflexivity.
Qed.

Lemma settlement_stores_or_notifies_witness :
  (alerts (log_of (settle report_selected (Fulfilled report_response) earlier_result)) = [] /\
   exists name,
     url_writes (log_of (settle report_selected (Fulfilled report_response) earlier_result)) =
       [VStr (static_base ++ name)]) \/
  (url_writes (log_of (settle report_selected (Fulfilled report_response) earlier_result)) = [] /\
   redactedPdf (state_of (settle report_selected (Fulfilled report_response) earlier_result)) =
     redactedPdf earlier_result /\
   usedOcr (state_of (settle report_selected (Fulfilled report_response) earlier_result)) =
     usedOcr earlier_result /\
   (alerts (log_of (settle report_selected (Fulfilled report_response) earlier_result)) =
      ["Failed to process the PDF."] \/
    alerts (log_of (settle report_selected (Fulfilled report_response) earlier_result)) =
      ["Something went wrong. Please try again."])).
Proof.
  apply (settlement_stores_or_notifies report_selected earlier_result report_pdf
           (Fulfilled report_response)).
  reflexivity.
Defined.

(** X4.  The success branch is taken for every status-200 response whose
    [filename] is truthy and converts to a string, not only for strings: the
    stored URL is the static base followed by the conversion, the OCR cell
    takes the body's [used_ocr] as it is ([undefined] when absent), the flag
    is lowered and no notice is shown. *)
Theorem any_truthy_filename_is_stored
    (s now : State) (file : File) (r : Response) (name : string) :
  pdf s = Picked file ->
  successful r name ->
  redactedPdf (state_of (settle s (Fulfilled r) now)) = VStr (static_base ++ name) /\
  usedOcr (state_of (settle s (Fulfilled r) now)) = prop (data r) "used_ocr" /\
  isLoading (state_of (settle s (Fulfilled r) now)) = false /\
  alerts (log_of (settle s (Fulfilled r) now)) = [].
Proof.
  intros Hpdf Hok. rewrite (settle_stored s file Hpdf now r name Hok).
  repeat split.
Qed.

Lemma any_truthy_filename_is_stored_witness :
  redactedPdf (state_of (settle report_selected (Fulfilled numbered_response)
                           earlier_result)) = VStr (static_base ++ "42") /\
  usedOcr (state_of (settle report_selected (Fulfilled numbered_response)
                       earlier_result)) = prop (data numbered_response) "used_ocr" /\
  isLoading (state_of (settle report_selected (Fulfilled numbered_response)
                         earlier_result)) = false /\
  alerts (log_of (settle report_selected (Fulfilled numbered_response)
                    earlier_result)) = [].
Proof.
  apply (any_truthy_filename_is_stored report_selected earlier_result report_pdf
           numbered_response "42").
  - reflexivity.
  - split; [reflexivity |].
    exists (VNum (NumOther "42")). repeat split.
Defined.

(** ** Further properties of the component over time *)

Lemma ui_reachable_submitted : ui_reachable submitted_app.
Proof.
  apply ui_reachable_step with (a := picked_app).
  - apply ui_reachable_step with (a := mount); [constructor |].
    apply ui_select.
  - apply ui_press. reflexivity.
Qed.

Lemma ui_reachable_served : ui_reachable served_app.
Proof.
  apply ui_reachable_step with (a := submitted_app);
    [exact ui_reachable_submitted |].
  unfold served_app, settle_first.
  destruct (in_flight submitted_app) as [| k others] eqn:Hflight;
    [discriminate |].
  replace others with (([] : list (Settlement -> Async unit)) ++ others)%list
    by reflexivity.
  apply ui_settle. exact Hflight.
Qed.

Lemma submit_effect_keeps_result (e : Effect) : submit_effect e -> keeps_result e.
Proof.
  destruct e as [v | v | v | b | m]; cbn; auto.
  intros [name ->]. reflexivity.
Qed.

(** X5.  In every state the component reaches, the download URL cell holds
    its initial [null] or a string that starts with the static base
    "http://127.0.0.1:8000/output/": the download link never points
    elsewhere. *)
Theorem download_url_stays_under_base (a : App) :
  reachable a ->
  redactedPdf (cells a) = VNull \/
  exists name,
    redactedPdf (cells a) = VStr ("http://127.0.0.1:8000/output/" ++ name) /\
    map (attr_of "href") (download_links (PiiRedactionApp (cells a))) =
      [Some (AVal (VStr ("http://127.0.0.1:8000/output/" ++ name)))].
Proof.
  intros Hreach.
  destruct (reachable_invariant submit_effect url_ok) with (a := a)
    as [[Hnull | [name Hurl]] _]; auto.
  - intros e s He Hs.
    destruct e as [v | v | v | b | m]; cbn in *; auto; try contradiction.
    right. exact He.
  - exact handleRedact_effects.
  - left. reflexivity.
  - right. exists name. split; [exact Hurl |].
    rewrite download_links_view, Hurl. reflexivity.
Qed.

Lemma download_url_stays_under_base_witness :
  redactedPdf (cells served_app) = VNull \/
  exists name,
    redactedPdf (cells served_app) = VStr ("http://127.0.0.1:8000/output/" ++ name) /\
    map (attr_of "href") (download_links (PiiRedactionApp (cells served_app))) =
      [Some (AVal (VStr ("http://127.0.0.1:8000/output/" ++ name)))].
Proof.
  apply (download_url_stays_under_base served_app).
  apply ui_reachable_is_reachable. exact ui_reachable_served.
Defined.

(** X6.  No event takes a result away: once the cells of a reachable state
    hold a download URL, they hold one after any further selection,
    submission or settlement, whether that submission succeeds or fails. *)
Theorem result_is_never_withdrawn (a b : App) :
  reachable a ->
  step a b ->
  truthy (redactedPdf (cells a)) = true ->
  truthy (redactedPdf (cells b)) = true.
Proof.
  intros Hreach Hstep Hresult.
  assert (Hhandler : forall selection, every_effect keeps_result (handleRedact selection)).
  { intros selection.
    apply every_effect_weaken with (P := submit_effect);
      [exact submit_effect_keeps_result | apply handleRedact_effects]. }
  assert (Hkeep : forall e s, keeps_result e ->
                    truthy (redactedPdf s) = true ->
                    truthy (redactedPdf (apply_effect e s)) = true).
  { intros e s He Hs. destruct e as [v | v | v | flag | m]; cbn in *; auto. }
  destruct (reachable_invariant keeps_result (fun _ => True)) with (a := a)
    as [_ Hflight]; auto.
  destruct Hstep as [a event | a | a before after k st Hsplit].
  - exact Hresult.
  - unfold submit.
    destruct (exec_every_effect keeps_result
                (fun s => truthy (redactedPdf s) = true)
                (handleRedact (pdf (cells a))) Hkeep (cells a) []
                (Hhandler _) Hresult (Forall_nil _)) as (Hend & _ & _).
    destruct (exec (handleRedact (pdf (cells a))) (cells a) []); exact Hend.
  - rewrite Hsplit in Hflight.
    apply Forall_app in Hflight as [_ Hrest].
    inversion Hrest as [| k' after' Hk _]; subst.
    destruct (exec_every_effect keeps_result
                (fun s => truthy (redactedPdf s) = true)
                (k st) Hkeep (cells a) [] (Hk st) Hresult (Forall_nil _))
      as (Hend & _ & _).
    destruct (exec (k st) (cells a) []); exact Hend.
Qed.

Lemma result_is_never_withdrawn_witness :
  truthy (redactedPdf (cells (absorb (submit (cells served_app))
                                (in_flight served_app)))) = true.
Proof.
  apply (result_is_never_withdrawn served_app
           (absorb (submit (cells served_app)) (in_flight served_app))).
  - apply ui_reachable_is_reachable. exact ui_reachable_served.
  - apply step_submit.
  - reflexivity.
Defined.

Lemma pressable_view (s : State) :
  pressable (PiiRedactionApp s) = negb (isLoading s).
Proof.
  unfold pressable, action_controls, PiiRedactionApp, and_node.
  destruct (truthy (redactedPdf s)); [destruct (truthy (usedOcr s)) |];
    destruct (isLoading s); reflexivity.
Qed.


(** A submission in flight that, however it settles, ends without a further
    request and with the flag lowered. *)
Lemma submission_ends_idle (s : State) (file : File)
    (r : Request) (k : Settlement -> Async unit) (s' : State) (log : list Effect) :
  pdf s = Picked file ->
  submit s = Suspended r k s' log ->
  forall st now,
    exists res final log',
      exec (k st) now [] = Finished res final log' /\ isLoading final = false.
Proof.
  intros Hpdf Hk st now.
  assert (Hsettle : settle s st now = exec (k st) now [])
    by (unfold settle; rewrite Hk; reflexivity).
  rewrite <- Hsettle.
  destruct (settle_cases s file Hpdf st now)
    as [(resp & name & _ & _ & Hrun) | (notice & _ & Hrun)];
    rewrite Hrun; eauto.
Qed.




(** X8.  Only the first file of a selection counts, and an earlier
    selection does not survive a new one: whatever was selected before, a
    submission after a selection event dispatches the request carrying the
    first file of the event's list, and dispatches nothing when the list is
    empty. *)
Theorem submit_sends_first_of_latest_selection (s : State) (event : ChangeEvent) :
  dispatched (submit (state_of (select_file s event))) =
    match target_files event with
    | f :: _ => Some (redact_request f)
    | [] => None
    end.
Proof.
  destruct event as [[| f others]]; reflexivity.
Qed.

(** X9.  After any settlement of a submission that nothing interrupted, the
    action control can be pressed again and pressing it dispatches the same
    request: a failed submission can be retried as it is, and a successful
    one repeated. *)
Theorem settled_submission_can_be_repeated
    (s : State) (file : File) (st : Settlement) :
  pdf s = Picked file ->
  pressable (PiiRedactionApp (state_of (submit_and_settle s st))) = true /\
  dispatched (submit (state_of (submit_and_settle s st))) = dispatched (submit s) /\
  dispatched (submit s) = Some (redact_request file).
Proof.
  intros Hpdf. unfold submit_and_settle.
  destruct (submit_dispatches s file Hpdf) as [k Hk].
  assert (Hsent : dispatched (submit s) = Some (redact_request file))
    by (rewrite Hk; reflexivity).
  assert (Hfile : pdf (state_of (settle s st (state_of (submit s)))) = Picked file).
  { destruct (settle_cases s file Hpdf st (state_of (submit s)))
      as [(r & name & _ & _ & Hrun) | (notice & _ & Hrun)];
      rewrite Hrun, Hk; cbn; exact Hpdf. }
  assert (Hidle : isLoading (state_of (settle s st (state_of (submit s)))) = false).
  { destruct (settle_cases s file Hpdf st (state_of (submit s)))
      as [(r & name & _ & _ & Hrun) | (notice & _ & Hrun)];
      rewrite Hrun; reflexivity. }
  split; [rewrite pressable_view, Hidle; reflexivity |].
  split; [| exact Hsent].
  rewrite Hsent. unfold submit at 1. rewrite Hfile. reflexivity.
Qed.

Lemma settled_submission_can_be_repeated_witness :
  pressable (PiiRedactionApp
               (state_of (submit_and_settle report_selected
                            (Rejected (RequestError "timeout"))))) = true /\
  dispatched (submit (state_of (submit_and_settle report_selected
                                  (Rejected (RequestError "timeout"))))) =
    dispatched (submit report_selected) /\
  dispatched (submit report_selected) = Some (redact_request report_pdf).
Proof.
  apply (settled_submission_can_be_repeated report_selected report_pdf
           (Rejected (RequestError "timeout"))).
  reflexivity.
Defined.

(** ** Further properties of the view *)

Lemma falsy_text_ready (v : Value) :
  truthy v = false -> existsb (String.eqb ready_text) (texts (Expr v)) = false.
Proof.
  destruct v as [| | b | [| | text] | [| c rest] | items | fields]; cbn [truthy];
    intros H; try discriminate; reflexivity.
Qed.

Lemma ready_view (s : State) :
  shows ready_text (PiiRedactionApp s) = truthy (redactedPdf s).
Proof.
  unfold shows, PiiRedactionApp, and_node.
  destruct (isLoading s);
    (destruct (truthy (redactedPdf s)) eqn:Hurl;
     [vm_compute; reflexivity | pose proof (falsy_text_ready _ Hurl) as Hnone]);
    cbn [texts flat_map app] in *; cbn [existsb];
    rewrite ?app_nil_r, ?existsb_app, Hnone; vm_compute; reflexivity.
Qed.

(** X10.  The result block is rendered exactly when the download URL cell
    is truthy: the ready line and the one download link are shown with it
    and not without it, and the OCR advisory needs both the URL and a truthy
    OCR flag, so a flag without a result shows nothing. *)
Theorem result_block_needs_url (s : State) :
  shows ready_text (PiiRedactionApp s) = truthy (redactedPdf s) /\
  List.length (download_links (PiiRedactionApp s)) =
    (if truthy (redactedPdf s) then 1 else 0) /\
  shows ocr_advisory (PiiRedactionApp s) =
    truthy (redactedPdf s) && truthy (usedOcr s).
Proof.
  split; [apply ready_view |]. split; [| apply advisory_view].
  rewrite <- (length_map (attr_of "href")), download_links_view.
  destruct (truthy (redactedPdf s)); reflexivity.
Qed.

Lemma falsy_number_text (s : State) (n : Number) :
  truthy (redactedPdf s) = true ->
  usedOcr s = VNum n ->
  num_zero_or_NaN n = true ->
  In (num_text n) (texts (PiiRedactionApp s)).
Proof.
  intros Hurl Hocr Hzero.
  unfold PiiRedactionApp, and_node. rewrite Hurl, Hocr.
  cbn [truthy]. rewrite Hzero. cbn [negb].
  destruct (isLoading s); cbn [texts flat_map app In];
    repeat (first [left; reflexivity | right]).
Qed.

(** X11.  The OCR cell is rendered as it came: when a successful response
    carries [used_ocr] as the number 0 (or [NaN]), the view prints that
    number as a piece of text in the result block, and no advisory. *)
Theorem falsy_number_flag_is_printed
    (s now : State) (file : File) (r : Response) (name : string) (n : Number) :
  pdf s = Picked file ->
  successful r name ->
  prop (data r) "used_ocr" = VNum n ->
  num_zero_or_NaN n = true ->
  In (num_text n) (texts (PiiRedactionApp (state_of (settle s (Fulfilled r) now)))) /\
  shows ocr_advisory (PiiRedactionApp (state_of (settle s (Fulfilled r) now))) = false.
Proof.
  intros Hpdf Hok Hocr Hzero.
  rewrite (settle_stored s file Hpdf now r name Hok).
  cbn [state_of]. split.
  - apply falsy_number_text; [reflexivity | exact Hocr | exact Hzero].
  - rewrite advisory_view.
    cbn [with_result apply_effect redactedPdf usedOcr].
    rewrite Hocr. cbn [truthy]. rewrite Hzero. apply andb_false_r.
Qed.

Lemma falsy_number_flag_is_printed_witness :
  In "0" (texts (PiiRedactionApp
                   (state_of (settle report_selected (Fulfilled numbered_response)
                                (state_of (submit report_selected)))))) /\
  shows ocr_advisory
    (PiiRedactionApp
       (state_of (settle report_selected (Fulfilled numbered_response)
                    (state_of (submit report_selected))))) = false.
Proof.
  apply (falsy_number_flag_is_printed report_selected
           (state_of (submit report_selected)) report_pdf numbered_response
           "42" NumZero).
  - reflexivity.
  - split; [reflexivity |].
    exists (VNum (NumOther "42")). repeat split.
  - reflexivity.
  - reflexivity.
Defined.

(** ** The handler run while a request is in flight *)

Lemma reachable_ends_idle (a : App) :
  reachable a ->
  Forall (fun k => forall st now,
            exists res final log',
              exec (k st) now [] = Finished res final log' /\
              isLoading final = false)
         (in_flight a).
Proof.
  induction 1 as [| a b Hreach IH Hstep]; [constructor |].
  destruct Hstep as [a event | a | a before after k st Hsplit].
  - exact IH.
  - destruct (pdf (cells a)) as [| | file] eqn:Hpdf.
    + unfold submit. rewrite Hpdf. exact IH.
    + unfold submit. rewrite Hpdf. exact IH.
    + destruct (submit_dispatches (cells a) file Hpdf) as [k Hk].
      rewrite Hk. cbn. apply Forall_app. split; [exact IH |].
      constructor; [| constructor].
      exact (submission_ends_idle (cells a) file _ k _ _ Hpdf Hk).
  - rewrite Hsplit in IH.
    apply Forall_app in IH as [Hbefore Hrest].
    inversion Hrest as [| k' after' Hk Hafter]; subst.
    destruct (Hk st (cells a)) as (res & final & log' & Hrun & _).
    rewrite Hrun. cbn. apply Forall_app. split; assumption.
Qed.

(** X12.  The flag does not count requests.  When the handler has been run
    again before an earlier request settled, the settlement of any one
    request in flight lowers the flag and leaves the other requests in
    flight. *)
Theorem any_settlement_lowers_the_flag
    (a : App) (before after : list (Settlement -> Async unit))
    (k : Settlement -> Async unit) (st : Settlement) :
  reachable a ->
  in_flight a = (before ++ k :: after)%list ->
  isLoading (cells (absorb (exec (k st) (cells a) []) (before ++ after)%list)) = false /\
  in_flight (absorb (exec (k st) (cells a) []) (before ++ after)%list) =
    (before ++ after)%list.
Proof.
  intros Hreach Hsplit.
  pose proof (reachable_ends_idle a Hreach) as Hidle.
  rewrite Hsplit in Hidle.
  apply Forall_app in Hidle as [_ Hrest].
  inversion Hrest as [| k' after' Hk _]; subst.
  destruct (Hk st (cells a)) as (res & final & log' & Hrun & Hdown).
  rewrite Hrun. cbn. split; [exact Hdown | reflexivity].
Qed.

Lemma any_settlement_lowers_the_flag_witness :
  isLoading (cells (settle_first twice_submitted_app
                      (Rejected (RequestError "timeout")))) = false /\
  List.length (in_flight (settle_first twice_submitted_app
                            (Rejected (RequestError "timeout")))) = 1.
Proof.
  unfold settle_first.
  destruct (in_flight twice_submitted_app) as [| k others] eqn:Hflight;
    [discriminate |].
  destruct (any_settlement_lowers_the_flag twice_submitted_app [] others k
              (Rejected (RequestError "timeout"))) as [Hdown Hrest].
  - apply reachable_step with (a := submitted_app).
    + apply ui_reachable_is_reachable. exact ui_reachable_submitted.
    + apply step_submit.
  - exact Hflight.
  - split; [exact Hdown |].
    cbn [app] in Hrest. rewrite Hrest.
    inversion Hflight. reflexivity.
Defined.
